(** * get_current_time.py

    A shallow embedding of [src/scripts/get_current_time.py]: the time
    field builder [get_time_info], the tips printer [print_search_tips],
    the command dispatcher [main], and the [json.dumps(..., indent=2)] call
    used by [--json].

    Modelling choices:
    - standard output is a byte string ([string] of [ascii]); Python's
      [print(s)] appends [s] and a newline;
    - the process outcome is the text written to standard output together
      with the exit status ([sys.exit(1)] gives 1, falling off [main]
      gives 0);
    - the system clock is explicit state: a reading function indexed by the
      number of reads performed so far;
    - [str.lower] is modelled on ASCII letters (the only letters of the
      recognized flags);
    - [%B] is rendered with the C-locale (English) month names;
    - [%Y] is glibc's: the year without zero padding. *)

From Stdlib Require Import String Ascii ZArith List Bool Lia.
Import ListNotations.
Open Scope string_scope.
Open Scope Z_scope.

(** ** Characters and small string helpers *)

Definition nl : string := String "010"%char EmptyString.
Definition dq : string := String "034"%char EmptyString.

(** Python's [print(s)]: write [s] followed by a newline. *)
Definition print (s : string) : string := s ++ nl.

(** Python's [s * n] on strings. *)
Fixpoint str_repeat (n : nat) (s : string) : string :=
  match n with
  | O => EmptyString
  | S k => s ++ str_repeat k s
  end.

(** [str.lower], on ASCII letters. *)
Definition lower_char (c : ascii) : ascii :=
  let n := nat_of_ascii c in
  if ((65 <=? n) && (n <=? 90))%nat then ascii_of_nat (n + 32) else c.

Fixpoint lower (s : string) : string :=
  match s with
  | EmptyString => EmptyString
  | String c r => String (lower_char c) (lower r)
  end.

(** Python's [x in [a, b, ...]] on strings. *)
Definition str_in (x : string) (l : list string) : bool :=
  existsb (String.eqb x) l.

(** ** Integer formatting: [str(int)] and zero padded [strftime] fields *)

Definition digit_char (d : Z) : ascii :=
  if d =? 0 then "0" else if d =? 1 then "1" else if d =? 2 then "2"
  else if d =? 3 then "3" else if d =? 4 then "4" else if d =? 5 then "5"
  else if d =? 6 then "6" else if d =? 7 then "7" else if d =? 8 then "8"
  else "9".

Fixpoint digits_aux (fuel : nat) (n : Z) (acc : string) : string :=
  match fuel with
  | O => acc
  | S f =>
      let acc' := String (digit_char (n mod 10)) acc in
      if n <? 10 then acc' else digits_aux f (n / 10) acc'
  end.

(** Decimal digits of a non-negative integer; [log2 n + 1] bounds the
    number of decimal digits. *)
Definition str_nonneg (n : Z) : string :=
  digits_aux (S (Z.to_nat (Z.log2 n))) n EmptyString.

(** Python's [str(n)] on an [int]. *)
Definition py_str (n : Z) : string :=
  if n <? 0 then "-" ++ str_nonneg (- n) else str_nonneg n.

(** Left padding with ['0'] to width [w], as [strftime]'s numeric fields. *)
Definition zpad (w : nat) (n : Z) : string :=
  let s := py_str n in
  str_repeat (w - String.length s) "0" ++ s.

(** ** Instants and the clock *)

(** A [datetime] value, as far as the formats used by the script see it. *)
Record instant := mk_instant {
  year : Z; month : Z; day : Z; hour : Z; minute : Z; second : Z
}.

Definition is_leap (y : Z) : bool :=
  ((y mod 4 =? 0) && negb (y mod 100 =? 0)) || (y mod 400 =? 0).

Definition days_in_month (y m : Z) : Z :=
  if m =? 2 then (if is_leap y then 29 else 28)
  else if (m =? 4) || (m =? 6) || (m =? 9) || (m =? 11) then 30 else 31.

(** The range checks [datetime] enforces on its fields. *)
Definition valid_instant (t : instant) : bool :=
  (1 <=? year t) && (year t <=? 9999)
  && (1 <=? month t) && (month t <=? 12)
  && (1 <=? day t) && (day t <=? days_in_month (year t) (month t))
  && (0 <=? hour t) && (hour t <=? 23)
  && (0 <=? minute t) && (minute t <=? 59)
  && (0 <=? second t) && (second t <=? 59).

(** The system clock: [reading k] is what the [k]-th call to
    [datetime.now()] returns, [ticks] the number of calls made so far. *)
Record clock := mk_clock { ticks : nat; reading : nat -> instant }.

(** [datetime.now()]. *)
Definition now_read (c : clock) : instant * clock :=
  (reading c (ticks c), mk_clock (S (ticks c)) (reading c)).

(** ** [strftime] directives *)

Definition month_names : list string :=
  ["January"; "February"; "March"; "April"; "May"; "June"; "July";
   "August"; "September"; "October"; "November"; "December"].

(** [%B] in the C locale. *)
Definition month_name (m : Z) : string := nth (Z.to_nat (m - 1)) month_names "".

(** [%Y] as CPython hands it to the C library's [strftime] (glibc): the
    year in decimal, without padding (years below 1000 are not padded to
    four digits). *)
Definition fmt_Y (t : instant) : string := py_str (year t).
Definition fmt_y (t : instant) : string := zpad 2 (year t mod 100).
Definition fmt_m (t : instant) : string := zpad 2 (month t).
Definition fmt_d (t : instant) : string := zpad 2 (day t).
Definition fmt_H (t : instant) : string := zpad 2 (hour t).
Definition fmt_M (t : instant) : string := zpad 2 (minute t).
Definition fmt_S (t : instant) : string := zpad 2 (second t).

(** ** [get_time_info] *)

(** The dictionary returned by [get_time_info]; [time_info_items] below
    gives it as the ordered dictionary Python builds. *)
Record TimeInfo := mk_time_info {
  ti_year : string;
  ti_year_short : string;
  ti_month_year : string;
  ti_quarter : string;
  ti_date_iso : string;
  ti_search_suffix : string;
  ti_full_datetime : string
}.

(** The dictionary literal of [get_time_info], built from one [now]. *)
Definition time_info_of (now : instant) : TimeInfo := {|
  ti_year := fmt_Y now;
  ti_year_short := fmt_y now;
  ti_month_year := month_name (month now) ++ " " ++ fmt_Y now;
  ti_quarter := "Q" ++ py_str ((month now - 1) / 3 + 1) ++ " " ++ py_str (year now);
  ti_date_iso := fmt_Y now ++ "-" ++ fmt_m now ++ "-" ++ fmt_d now;
  ti_search_suffix := fmt_Y now;
  ti_full_datetime := fmt_Y now ++ "-" ++ fmt_m now ++ "-" ++ fmt_d now ++ " "
                      ++ fmt_H now ++ ":" ++ fmt_M now ++ ":" ++ fmt_S now
|}.

(** [get_time_info()]: one call to [datetime.now()], then the dictionary. *)
Definition get_time_info (c : clock) : TimeInfo * clock :=
  let (now, c') := now_read c in (time_info_of now, c').

Definition time_info_items (ti : TimeInfo) : list (string * string) :=
  [("year", ti_year ti); ("year_short", ti_year_short ti);
   ("month_year", ti_month_year ti); ("quarter", ti_quarter ti);
   ("date_iso", ti_date_iso ti); ("search_suffix", ti_search_suffix ti);
   ("full_datetime", ti_full_datetime ti)].

(** ** [print_search_tips] *)

Definition quoted (s : string) : string := dq ++ s ++ dq.

Definition print_search_tips (ti : TimeInfo) : string :=
  print (str_repeat 60 "=") ++
  print "TIME-AWARE SEARCH TIPS" ++
  print (str_repeat 60 "=") ++
  print (nl ++ "Current Year: " ++ ti_year ti) ++
  print ("Current Quarter: " ++ ti_quarter ti) ++
  print ("Current Date: " ++ ti_date_iso ti) ++
  print "" ++
  print "SEARCH QUERY EXAMPLES:" ++
  print (str_repeat 40 "-") ++
  print ("  " ++ quoted ("FastAPI JWT authentication " ++ ti_year ti)) ++
  print ("  " ++ quoted ("React useEffect best practices " ++ ti_year ti)) ++
  print ("  " ++ quoted ("Python security vulnerabilities " ++ ti_year ti)) ++
  print ("  " ++ quoted ("Next.js 14 breaking changes " ++ ti_year ti)) ++
  print "" ++
  print "WHY ADD THE YEAR?" ++
  print (str_repeat 40 "-") ++
  print "  • Libraries and frameworks update frequently" ++
  print "  • Best practices evolve over time" ++
  print "  • Security recommendations change" ++
  print "  • Adding the year filters out outdated content" ++
  print "  • Results prioritize recent tutorials and docs" ++
  print "" ++
  print "SEARCH SUFFIXES TO TRY:" ++
  print (str_repeat 40 "-") ++
  print ("  " ++ quoted ("[topic] " ++ ti_year ti) ++ "          - General current info") ++
  print ("  " ++ quoted ("[topic] latest " ++ ti_year ti) ++ "   - Emphasize recency") ++
  print ("  " ++ quoted ("[topic] best practices " ++ ti_year ti) ++ " - Current standards") ++
  print ("  " ++ quoted ("[topic] changelog " ++ ti_year ti) ++ " - Recent changes") ++
  print "".

(** ** [json.dumps(time_info, indent=2)] *)

Definition bs : string := String "092"%char EmptyString.

Definition hex_digit (d : nat) : ascii :=
  nth d ["0"; "1"; "2"; "3"; "4"; "5"; "6"; "7"; "8"; "9";
         "a"; "b"; "c"; "d"; "e"; "f"]%char "0"%char.

(** The string encoder of [json] with [ensure_ascii=True]: a backslash
    escape for the quote, the backslash and the usual control characters,
    [\u00XX] for every other character outside [' '..'~'].  Characters are
    code points below 256 here. *)
Definition json_escape_char (c : ascii) : string :=
  let n := nat_of_ascii c in
  if (n =? 34)%nat then bs ++ dq
  else if (n =? 92)%nat then bs ++ bs
  else if (n =? 10)%nat then bs ++ "n"
  else if (n =? 13)%nat then bs ++ "r"
  else if (n =? 9)%nat then bs ++ "t"
  else if (n =? 8)%nat then bs ++ "b"
  else if (n =? 12)%nat then bs ++ "f"
  else if ((32 <=? n) && (n <=? 126))%nat then String c EmptyString
  else bs ++ "u00" ++ String (hex_digit (n / 16)) (String (hex_digit (n mod 16)) EmptyString).

Fixpoint json_escape (s : string) : string :=
  match s with
  | EmptyString => EmptyString
  | String c r => json_escape_char c ++ json_escape r
  end.

Definition json_str (s : string) : string := dq ++ json_escape s ++ dq.

(** One [key: value] member; the key separator is [": "]. *)
Definition json_member (kv : string * string) : string :=
  json_str (fst kv) ++ ": " ++ json_str (snd kv).

(** The item separator of [json.dumps] with [indent=2]: [","] followed by
    a newline and the indent. *)
Definition item_separator : string := "," ++ nl ++ "  ".

(** [json.dumps(d, indent=2)] for a dictionary of strings:
    ['{' + newline_indent + item_separator.join(chunks) + newline + '}'],
    and ['{}'] for the empty dictionary. *)
Definition json_dumps_indent2 (d : list (string * string)) : string :=
  match d with
  | [] => "{}"
  | _ => "{" ++ nl ++ "  " ++ String.concat item_separator (map json_member d) ++ nl ++ "}"
  end.

(** ** The module docstring printed by [--help] *)

Definition usage_doc : string :=
  String.concat nl
    [""; "Time-aware search utility for external research."; "";
     "This script provides current date/time information in formats useful for";
     "constructing search queries that prioritize recent and relevant results.";
     ""; "Usage:";
     "    python get_current_time.py           # Get all formats";
     "    python get_current_time.py --year    # Just the year";
     "    python get_current_time.py --search  # Search-friendly format"; ""].

(** ** [main] *)

Record outcome := mk_outcome { stdout : string; exit_status : Z }.

(** [main()] run with [sys.argv = argv] against the clock [c]. *)
Definition main (argv : list string) (c : clock) : outcome :=
  let (time_info, _) := get_time_info c in
  match argv with
  | _ :: a :: _ =>
      let arg := lower a in
      if str_in arg ["--year"; "-y"] then
        mk_outcome (print (ti_year time_info)) 0
      else if str_in arg ["--search"; "-s"] then
        mk_outcome (print (ti_search_suffix time_info)) 0
      else if str_in arg ["--quarter"; "-q"] then
        mk_outcome (print (ti_quarter time_info)) 0
      else if str_in arg ["--date"; "-d"] then
        mk_outcome (print (ti_date_iso time_info)) 0
      else if str_in arg ["--json"; "-j"] then
        mk_outcome (print (json_dumps_indent2 (time_info_items time_info))) 0
      else if str_in arg ["--tips"; "-t"] then
        mk_outcome (print_search_tips time_info) 0
      else if str_in arg ["--help"; "-h"] then
        mk_outcome
          (print usage_doc ++
           print (nl ++ "Options:") ++
           print "  --year, -y     Just the current year (e.g., 2026)" ++
           print "  --search, -s   Search-friendly suffix" ++
           print "  --quarter, -q  Current quarter (e.g., Q1 2026)" ++
           print "  --date, -d     ISO date (e.g., 2026-02-08)" ++
           print "  --json, -j     All formats as JSON" ++
           print "  --tips, -t     Print search tips with examples" ++
           print "  --help, -h     Show this help message") 0
      else
        mk_outcome
          (print ("Unknown argument: " ++ arg) ++
           print "Use --help for usage information") 1
  | _ => mk_outcome (print_search_tips time_info) 0
  end.

(** The flags [main] recognizes (after case folding). *)
Definition recognized (arg : string) : bool :=
  str_in arg ["--year"; "-y"; "--search"; "-s"; "--quarter"; "-q";
              "--date"; "-d"; "--json"; "-j"; "--tips"; "-t"; "--help"; "-h"].

(** A clock whose every reading is [t]. *)
Definition fixed_clock (t : instant) : clock := mk_clock 0 (fun _ => t).

Definition sample : instant := mk_instant 2026 2 8 14 30 0.

Example ex_quarter : stdout (main ["get_current_time.py"; "--QUARTER"] (fixed_clock sample)) = "Q1 2026" ++ nl.
Proof. reflexivity. Qed.
(** ** Reading the output back: [json.loads] on an object of strings

    The reader used to state the round trip of [--json]: the part of
    Python's JSON decoder that objects whose values are all strings go
    through (whitespace, string escapes with [strict=True], members). *)

Definition is_ws (c : ascii) : bool :=
  let n := nat_of_ascii c in ((n =? 32) || (n =? 9) || (n =? 10) || (n =? 13))%nat.

Fixpoint skip_ws (s : string) : string :=
  match s with
  | EmptyString => EmptyString
  | String c r => if is_ws c then skip_ws r else s
  end.

Definition hex_val (c : ascii) : option nat :=
  let n := nat_of_ascii c in
  if ((48 <=? n) && (n <=? 57))%nat then Some (n - 48)%nat
  else if ((97 <=? n) && (n <=? 102))%nat then Some (n - 87)%nat
  else if ((65 <=? n) && (n <=? 70))%nat then Some (n - 55)%nat
  else None.

(** The character of a [\uXXXX] escape, for code points below 256. *)
Definition hex4_char (h1 h2 h3 h4 : ascii) : option ascii :=
  match hex_val h1, hex_val h2, hex_val h3, hex_val h4 with
  | Some a, Some b, Some c, Some d =>
      let v := (((a * 16 + b) * 16 + c) * 16 + d)%nat in
      if (v <? 256)%nat then Some (ascii_of_nat v) else None
  | _, _, _, _ => None
  end.

(** The one-character escapes: quote, backslash, slash, b, f, n, r, t. *)
Definition simple_escape (e : ascii) : option ascii :=
  let k := nat_of_ascii e in
  if ((k =? 34) || (k =? 92) || (k =? 47))%nat then Some e
  else if (k =? 98)%nat then Some "008"%char
  else if (k =? 102)%nat then Some "012"%char
  else if (k =? 110)%nat then Some "010"%char
  else if (k =? 114)%nat then Some "013"%char
  else if (k =? 116)%nat then Some "009"%char
  else None.

Definition cons_res (ch : ascii) (o : option (string * string)) : option (string * string) :=
  match o with
  | Some (v, r) => Some (String ch v, r)
  | None => None
  end.

(** The body of a string literal, after its opening quote: the decoded
    string and what follows the closing quote. *)
Fixpoint json_str_body (s : string) : option (string * string) :=
  match s with
  | EmptyString => None
  | String c r =>
      let n := nat_of_ascii c in
      if (n =? 34)%nat then Some (EmptyString, r)
      else if (n =? 92)%nat then
        match r with
        | String e r' =>
            if (nat_of_ascii e =? 117)%nat then
              match r' with
              | String h1 (String h2 (String h3 (String h4 r4))) =>
                  match hex4_char h1 h2 h3 h4 with
                  | Some ch => cons_res ch (json_str_body r4)
                  | None => None
                  end
              | _ => None
              end
            else
              match simple_escape e with
              | Some ch => cons_res ch (json_str_body r')
              | None => None
              end
        | EmptyString => None
        end
      else if (n <? 32)%nat then None
      else cons_res c (json_str_body r)
  end.

(** A string literal, after leading whitespace. *)
Definition json_string (s : string) : option (string * string) :=
  match skip_ws s with
  | String c r => if (nat_of_ascii c =? 34)%nat then json_str_body r else None
  | EmptyString => None
  end.

(** One [key: value] member whose value is a string. *)
Definition json_member_p (s : string) : option ((string * string) * string) :=
  match json_string s with
  | Some (k, s1) =>
      match skip_ws s1 with
      | String c s2 =>
          if (nat_of_ascii c =? 58)%nat then
            match json_string s2 with
            | Some (v, s3) => Some ((k, v), s3)
            | None => None
            end
          else None
      | EmptyString => None
      end
  | None => None
  end.

(** The members after the first one, up to the closing brace. *)
Fixpoint json_members_rest (fuel : nat) (s : string)
  : option (list (string * string) * string) :=
  match fuel with
  | O => None
  | S f =>
      match skip_ws s with
      | String c s1 =>
          if (nat_of_ascii c =? 44)%nat then
            match json_member_p s1 with
            | Some (kv, s2) =>
                match json_members_rest f s2 with
                | Some (kvs, s3) => Some (kv :: kvs, s3)
                | None => None
                end
            | None => None
            end
          else if (nat_of_ascii c =? 125)%nat then Some ([], s1)
          else None
      | EmptyString => None
      end
  end.

Definition json_object (s : string) : option (list (string * string) * string) :=
  match skip_ws s with
  | String c s1 =>
      if (nat_of_ascii c =? 123)%nat then
        match skip_ws s1 with
        | String d s2 =>
            if (nat_of_ascii d =? 125)%nat then Some ([], s2)
            else
              match json_member_p s1 with
              | Some (kv, s2') =>
                  match json_members_rest (String.length s1) s2' with
                  | Some (kvs, s3) => Some (kv :: kvs, s3)
                  | None => None
                  end
              | None => None
              end
        | EmptyString => None
        end
      else None
  | EmptyString => None
  end.

(** [json.loads(s)] for a document that is an object of strings; the
    members come in document order. *)
Definition json_loads (s : string) : option (list (string * string)) :=
  match json_object s with
  | Some (kvs, rest) =>
      match skip_ws rest with
      | EmptyString => Some kvs
      | _ => None
      end
  | None => None
  end.

Example ex_loads : json_loads (stdout (main ["p"; "-j"] (fixed_clock sample)))
  = Some (time_info_items (time_info_of sample)).
Proof. vm_compute. reflexivity. Qed.

(** * Lemmas *)

(** ** String algebra *)

Lemma str_app_assoc (a b c : string) : (a ++ b) ++ c = a ++ (b ++ c).
Proof. induction a as [|x a IH]; simpl; [reflexivity | now rewrite IH]. Qed.

Lemma str_app_nil_r (a : string) : a ++ EmptyString = a.
Proof. induction a as [|x a IH]; simpl; [reflexivity | now rewrite IH]. Qed.

Lemma str_length_app (a b : string) :
  String.length (a ++ b) = (String.length a + String.length b)%nat.
Proof. induction a as [|x a IH]; simpl; [reflexivity | now rewrite IH]. Qed.

(** ** Characters that [json] writes unescaped and reads back as they are *)

Definition safe_char (c : ascii) : bool :=
  let n := nat_of_ascii c in
  ((32 <=? n) && (n <=? 126) && negb (n =? 34) && negb (n =? 92))%nat.

Fixpoint safe_str (s : string) : bool :=
  match s with
  | EmptyString => true
  | String c r => safe_char c && safe_str r
  end.

Lemma safe_str_app (a b : string) : safe_str (a ++ b) = safe_str a && safe_str b.
Proof.
  induction a as [|x a IH]; simpl; [reflexivity|].
  rewrite IH; apply andb_assoc.
Qed.

Ltac split_safe :=
  repeat match goal with
  | H : _ && _ = true |- _ => apply andb_prop in H; destruct H
  | H : negb _ = true |- _ => apply negb_true_iff in H
  | H : Nat.eqb _ _ = false |- _ => apply Nat.eqb_neq in H
  | H : Nat.leb _ _ = true |- _ => apply Nat.leb_le in H
  end.

Lemma json_escape_char_safe (c : ascii) :
  safe_char c = true -> json_escape_char c = String c EmptyString.
Proof.
  unfold safe_char, json_escape_char; intros H; split_safe.
  set (n := nat_of_ascii c) in *.
  destruct (Nat.eqb_spec n 34); [lia|].
  destruct (Nat.eqb_spec n 92); [lia|].
  destruct (Nat.eqb_spec n 10); [lia|].
  destruct (Nat.eqb_spec n 13); [lia|].
  destruct (Nat.eqb_spec n 9); [lia|].
  destruct (Nat.eqb_spec n 8); [lia|].
  destruct (Nat.eqb_spec n 12); [lia|].
  replace ((32 <=? n) && (n <=? 126))%nat with true; [reflexivity|].
  symmetry; apply andb_true_intro; split; apply Nat.leb_le; lia.
Qed.

Lemma json_escape_safe (s : string) : safe_str s = true -> json_escape s = s.
Proof.
  induction s as [|c s IH]; simpl; [reflexivity|].
  intros H; apply andb_prop in H; destruct H as [Hc Hs].
  rewrite (json_escape_char_safe c Hc); simpl; now rewrite IH.
Qed.

Lemma json_str_body_safe (s r : string) :
  safe_str s = true -> json_str_body (s ++ String "034" r) = Some (s, r).
Proof.
  induction s as [|c s IH]; simpl; [reflexivity|].
  intros H; apply andb_prop in H; destruct H as [Hc Hs].
  unfold safe_char in Hc; split_safe.
  set (n := nat_of_ascii c) in *.
  destruct (Nat.eqb_spec n 34); [lia|].
  destruct (Nat.eqb_spec n 92); [lia|].
  destruct (Nat.ltb_spec n 32); [lia|].
  now rewrite (IH Hs).
Qed.

(** ** Every field of [get_time_info] is made of safe characters *)

Lemma digit_char_safe (d : Z) : safe_char (digit_char d) = true.
Proof. unfold digit_char; repeat destruct (_ =? _); reflexivity. Qed.

Lemma digits_aux_safe (f : nat) (n : Z) (acc : string) :
  safe_str acc = true -> safe_str (digits_aux f n acc) = true.
Proof.
  revert n acc; induction f as [|f IH]; intros n acc H; simpl; [exact H|].
  destruct (n <? 10); [| apply IH]; simpl; rewrite digit_char_safe; exact H.
Qed.

Lemma py_str_safe (n : Z) : safe_str (py_str n) = true.
Proof.
  unfold py_str, str_nonneg.
  destruct (n <? 0); [rewrite safe_str_app; apply andb_true_intro; split; [reflexivity|]|];
    apply digits_aux_safe; reflexivity.
Qed.

Lemma str_repeat_safe (k : nat) (s : string) :
  safe_str s = true -> safe_str (str_repeat k s) = true.
Proof.
  intros H; induction k as [|k IH]; simpl; [reflexivity|].
  rewrite safe_str_app, H, IH; reflexivity.
Qed.

Lemma zpad_safe (w : nat) (n : Z) : safe_str (zpad w n) = true.
Proof.
  unfold zpad; rewrite safe_str_app, str_repeat_safe, py_str_safe; reflexivity.
Qed.

Lemma month_name_safe (m : Z) : safe_str (month_name m) = true.
Proof.
  unfold month_name.
  destruct (nth_in_or_default (Z.to_nat (m - 1)) month_names "") as [Hin|Hd].
  - assert (Hall : forallb safe_str month_names = true) by reflexivity.
    rewrite forallb_forall in Hall; exact (Hall _ Hin).
  - rewrite Hd; reflexivity.
Qed.

Definition safe_item (kv : string * string) : bool := safe_str (fst kv) && safe_str (snd kv).

Create Rewrite HintDb safe.
#[local] Hint Rewrite safe_str_app zpad_safe py_str_safe month_name_safe : safe.

Lemma time_info_items_safe (t : instant) :
  forallb safe_item (time_info_items (time_info_of t)) = true.
Proof.
  unfold time_info_items, time_info_of, fmt_Y, fmt_y, fmt_m, fmt_d, fmt_H, fmt_M, fmt_S;
    unfold safe_item;
    cbn [forallb fst snd ti_year ti_year_short ti_month_year ti_quarter
         ti_date_iso ti_search_suffix ti_full_datetime].
  autorewrite with safe; reflexivity.
Qed.

(** ** Reading back what [json.dumps] writes *)

Fixpoint all_ws (s : string) : bool :=
  match s with
  | EmptyString => true
  | String c r => is_ws c && all_ws r
  end.

Lemma skip_ws_app (w s : string) : all_ws w = true -> skip_ws (w ++ s) = skip_ws s.
Proof.
  induction w as [|c w IH]; simpl; [reflexivity|].
  intros H; apply andb_prop in H; destruct H as [Hc Hw]; rewrite Hc; exact (IH Hw).
Qed.

Lemma json_member_p_ok (w : string) (kv : string * string) (r : string) :
  all_ws w = true -> safe_item kv = true ->
  json_member_p (w ++ json_member kv ++ r) = Some (kv, r).
Proof.
  destruct kv as [k v]; unfold safe_item; cbn [fst snd].
  intros Hw Hkv; apply andb_prop in Hkv; destruct Hkv as [Hk Hv].
  unfold json_member, json_str; cbn [fst snd].
  rewrite (json_escape_safe k Hk), (json_escape_safe v Hv).
  repeat rewrite str_app_assoc.
  unfold json_member_p, json_string; rewrite (skip_ws_app w _ Hw); simpl.
  rewrite (json_str_body_safe k _ Hk); simpl.
  rewrite (json_str_body_safe v _ Hv); reflexivity.
Qed.

Fixpoint sep_members (es : list (string * string)) : string :=
  match es with
  | [] => EmptyString
  | kv :: es' => item_separator ++ json_member kv ++ sep_members es'
  end.

Lemma concat_members (kv : string * string) (es : list (string * string)) :
  String.concat item_separator (map json_member (kv :: es)) = json_member kv ++ sep_members es.
Proof.
  revert kv; induction es as [|kv' es IH]; intros kv.
  - simpl; now rewrite str_app_nil_r.
  - change (json_member kv ++ item_separator ++
            String.concat item_separator (map json_member (kv' :: es))
            = json_member kv ++ sep_members (kv' :: es)).
    now rewrite IH.
Qed.

Lemma json_members_rest_ok (es : list (string * string)) (r : string) (fuel : nat) :
  forallb safe_item es = true -> (length es < fuel)%nat ->
  json_members_rest fuel (sep_members es ++ nl ++ "}" ++ r) = Some (es, r).
Proof.
  revert fuel; induction es as [|kv es IH]; intros fuel Hs Hf;
    (destruct fuel as [|fuel]; [simpl in Hf; lia|]).
  - reflexivity.
  - simpl in Hs; apply andb_prop in Hs; destruct Hs as [Hkv Hes].
    simpl in Hf.
    cbn [sep_members]; unfold item_separator; repeat rewrite str_app_assoc.
    cbn [json_members_rest append skip_ws].
    replace (is_ws ",") with false by reflexivity.
    replace (nat_of_ascii "," =? 44)%nat with true by reflexivity.
    pose proof (json_member_p_ok (nl ++ "  ") kv (sep_members es ++ nl ++ "}" ++ r) eq_refl Hkv)
      as Hm.
    rewrite str_app_assoc in Hm; cbn [append] in Hm; rewrite Hm.
    specialize (IH fuel Hes ltac:(lia)); cbn [append] in IH; rewrite IH; reflexivity.
Qed.

Lemma sep_members_length (es : list (string * string)) :
  (length es <= String.length (sep_members es))%nat.
Proof.
  induction es as [|kv es IH]; simpl; [lia|].
  rewrite !str_length_app; simpl; lia.
Qed.

Lemma json_member_head (kv : string * string) :
  exists x, json_member kv = String "034"%char x.
Proof. destruct kv; eexists; reflexivity. Qed.

Lemma json_object_ok (kv : string * string) (es : list (string * string)) (r : string) :
  forallb safe_item (kv :: es) = true ->
  json_object (json_dumps_indent2 (kv :: es) ++ r) = Some (kv :: es, r).
Proof.
  intros Hs; simpl in Hs; apply andb_prop in Hs; destruct Hs as [Hkv Hes].
  unfold json_dumps_indent2; rewrite concat_members.
  repeat rewrite str_app_assoc.
  set (tail := sep_members es ++ nl ++ "}" ++ r).
  set (s1 := nl ++ "  " ++ json_member kv ++ tail).
  unfold json_object.
  change (skip_ws ("{" ++ s1)) with (String "{"%char s1).
  replace (nat_of_ascii "{" =? 123)%nat with true by reflexivity; cbv beta iota.
  destruct (json_member_head kv) as [x Hx].
  assert (Hsk : skip_ws s1 = String "034"%char (x ++ tail)).
  { unfold s1; rewrite <- (str_app_assoc nl "  "), skip_ws_app by reflexivity.
    rewrite Hx; reflexivity. }
  rewrite Hsk.
  replace (nat_of_ascii "034" =? 125)%nat with false by reflexivity; cbv beta iota.
  pose proof (json_member_p_ok (nl ++ "  ") kv tail eq_refl Hkv) as Hm.
  rewrite str_app_assoc in Hm; fold s1 in Hm; rewrite Hm.
  assert (Hlen : (length es < String.length s1)%nat).
  { unfold s1, tail; rewrite !str_length_app.
    pose proof (sep_members_length es); simpl; lia. }
  unfold tail; rewrite (json_members_rest_ok es r _ Hes Hlen); reflexivity.
Qed.

(** ** [main] depends on the clock through one reading only *)

(** The instant the next [datetime.now()] returns. *)
Definition current (c : clock) : instant := reading c (ticks c).

Lemma get_time_info_eq (c : clock) :
  get_time_info c = (time_info_of (current c), mk_clock (S (ticks c)) (reading c)).
Proof. reflexivity. Qed.

Lemma main_current (argv : list string) (c1 c2 : clock) :
  current c1 = current c2 -> main argv c1 = main argv c2.
Proof.
  intros H; unfold main; rewrite !get_time_info_eq, H; reflexivity.
Qed.

(** Arguments after [sys.argv[1]] are never read, and [sys.argv[1]] is
    only seen through [lower]. *)
Lemma main_lower (p a b : string) (r1 r2 : list string) (c : clock) :
  lower a = lower b -> main (p :: a :: r1) c = main (p :: b :: r2) c.
Proof. intros H; unfold main; cbv zeta; rewrite H; reflexivity. Qed.

Lemma lower_lower (s : string) : lower (lower s) = lower s.
Proof.
  induction s as [|ch s IH]; simpl; [reflexivity|]; rewrite IH; f_equal.
  unfold lower_char.
  destruct ((65 <=? nat_of_ascii ch) && (nat_of_ascii ch <=? 90))%nat eqn:E.
  - apply andb_prop in E; destruct E as [E1 E2]; apply Nat.leb_le in E1, E2.
    rewrite nat_ascii_embedding by lia.
    replace ((65 <=? nat_of_ascii ch + 32) && (nat_of_ascii ch + 32 <=? 90))%nat
      with false; [reflexivity|].
    symmetry; apply andb_false_iff; right; apply Nat.leb_gt; lia.
  - rewrite E; reflexivity.
Qed.

(** [main] on any argument reduces to [main] on its case-folded form. *)
Lemma main_folded (p a : string) (r : list string) (c : clock) :
  main (p :: a :: r) c = main [p; lower a] c.
Proof. apply main_lower; now rewrite lower_lower. Qed.

Lemma recognized_split (x : string) :
  recognized x =
  str_in x ["--year"; "-y"] || str_in x ["--search"; "-s"] || str_in x ["--quarter"; "-q"]
  || str_in x ["--date"; "-d"] || str_in x ["--json"; "-j"] || str_in x ["--tips"; "-t"]
  || str_in x ["--help"; "-h"].
Proof.
  unfold recognized, str_in; simpl.
  repeat rewrite orb_false_r; repeat rewrite orb_assoc; reflexivity.
Qed.

Lemma main_unknown (p a : string) (r : list string) (c : clock) :
  recognized (lower a) = false ->
  main (p :: a :: r) c =
  mk_outcome (print ("Unknown argument: " ++ lower a) ++
              print "Use --help for usage information") 1.
Proof.
  rewrite recognized_split; intros H.
  unfold main; cbv zeta; rewrite get_time_info_eq.
  repeat match goal with
  | |- context [if str_in ?x ?l then _ else _] =>
      destruct (str_in x l); [rewrite ?orb_true_r, ?orb_true_l in H; discriminate|]
  end.
  reflexivity.
Qed.

Lemma recognized_cases (x : string) :
  recognized x = true ->
  In x ["--year"; "-y"; "--search"; "-s"; "--quarter"; "-q";
        "--date"; "-d"; "--json"; "-j"; "--tips"; "-t"; "--help"; "-h"].
Proof.
  unfold recognized, str_in; intros H; apply existsb_exists in H.
  destruct H as [y [Hin Hy]]; apply String.eqb_eq in Hy; subst y; exact Hin.
Qed.

(** * Claims *)

(** ** Fields of [get_time_info] *)

(** C2: for every captured instant (a valid [datetime]), the quarter field
    is ["Q{n} {year}"] with [n = (month - 1) // 3 + 1], and it is one of
    ["Q1 {Y}"], ["Q2 {Y}"], ["Q3 {Y}"], ["Q4 {Y}"] for [Y] the instant's
    year. *)
Theorem quarter_field (c : clock) :
  valid_instant (current c) = true ->
  let t := current c in
  let q := ti_quarter (fst (get_time_info c)) in
  q = "Q" ++ py_str ((month t - 1) / 3 + 1) ++ " " ++ py_str (year t)
  /\ (1 <= (month t - 1) / 3 + 1 <= 4)
  /\ (q = "Q1 " ++ py_str (year t) \/ q = "Q2 " ++ py_str (year t)
      \/ q = "Q3 " ++ py_str (year t) \/ q = "Q4 " ++ py_str (year t)).
Proof.
  intros Hv t q; subst t q; rewrite get_time_info_eq; cbn [fst ti_quarter time_info_of].
  unfold valid_instant in Hv; split_safe.
  repeat match goal with H : (_ <=? _) = true |- _ => apply Z.leb_le in H end.
  set (m := month (current c)) in *.
  assert (Hm : m = 1 \/ m = 2 \/ m = 3 \/ m = 4 \/ m = 5 \/ m = 6 \/ m = 7
               \/ m = 8 \/ m = 9 \/ m = 10 \/ m = 11 \/ m = 12) by lia.
  split; [reflexivity|].
  repeat destruct Hm as [Hm|Hm]; rewrite Hm; simpl; (split; [lia|]);
    repeat (solve [left; reflexivity] || right); reflexivity.
Qed.

Lemma quarter_field_witness :
  valid_instant (current (fixed_clock sample)) = true /\
  ti_quarter (fst (get_time_info (fixed_clock sample))) = "Q1 2026".
Proof.
  split; [reflexivity|].
  destruct (quarter_field (fixed_clock sample) eq_refl) as [Hq _].
  rewrite Hq; reflexivity.
Defined.

(** C5: for every captured instant, the [search_suffix] field equals the
    [year] field; so [--search] and [--year] print the same text. *)
Theorem search_suffix_is_year (c : clock) (p : string) (rest : list string) :
  ti_search_suffix (fst (get_time_info c)) = ti_year (fst (get_time_info c))
  /\ main (p :: "--search" :: rest) c = main (p :: "--year" :: rest) c.
Proof. split; reflexivity. Qed.

(** C4: [get_time_info] reads the clock exactly once and builds all seven
    fields from that one reading: two evaluations against clocks whose next
    reading is the same instant give identical dictionaries, the dictionary
    is [time_info_of] that instant, and one [datetime.now()] is consumed.
    The whole run of [main] likewise depends on that single reading. *)
Theorem get_time_info_single_instant (c1 c2 : clock) :
  current c1 = current c2 ->
  fst (get_time_info c1) = fst (get_time_info c2)
  /\ fst (get_time_info c1) = time_info_of (current c1)
  /\ ticks (snd (get_time_info c1)) = S (ticks c1)
  /\ (forall argv, main argv c1 = main argv c2).
Proof.
  intros H; rewrite !get_time_info_eq, H; cbn [fst snd ticks].
  split; [reflexivity|]; split; [reflexivity|]; split; [reflexivity|].
  intros argv; apply main_current; exact H.
Qed.

(** Two clocks with different histories but the same next reading. *)
Definition clock_a : clock := mk_clock 0 (fun _ => sample).
Definition clock_b : clock :=
  mk_clock 5 (fun k => if (k =? 5)%nat then sample else mk_instant 1999 12 31 23 59 59).

Lemma get_time_info_single_instant_witness :
  current clock_a = current clock_b /\
  fst (get_time_info clock_a) = fst (get_time_info clock_b).
Proof.
  split; [reflexivity|].
  exact (proj1 (get_time_info_single_instant clock_a clock_b eq_refl)).
Defined.

(** ** [--json] *)

(** C3: [--json] prints [json.dumps] with [indent=2] of the seven fields
    [year, year_short, month_year, quarter, date_iso, search_suffix,
    full_datetime] in that order, exits 0, and reading the printed text
    back gives exactly those keys with the values of [get_time_info]. *)
Theorem json_output_roundtrip (p : string) (rest : list string) (c : clock) :
  let ti := fst (get_time_info c) in
  main (p :: "--json" :: rest) c
    = mk_outcome (print (json_dumps_indent2 (time_info_items ti))) 0
  /\ map fst (time_info_items ti)
     = ["year"; "year_short"; "month_year"; "quarter"; "date_iso";
        "search_suffix"; "full_datetime"]
  /\ json_loads (stdout (main (p :: "--json" :: rest) c)) = Some (time_info_items ti).
Proof.
  intros ti.
  assert (Hmain : main (p :: "--json" :: rest) c
                  = mk_outcome (print (json_dumps_indent2 (time_info_items ti))) 0)
    by reflexivity.
  split; [exact Hmain|]; split; [reflexivity|].
  rewrite Hmain; cbn [stdout]; unfold print, json_loads.
  assert (Hs : forallb safe_item (time_info_items ti) = true).
  { subst ti; rewrite get_time_info_eq; apply time_info_items_safe. }
  change (time_info_items ti) with
    (("year", ti_year ti) :: tl (time_info_items ti)) in *.
  rewrite (json_object_ok _ _ nl Hs); reflexivity.
Qed.

(** ** Dispatch *)

(** The flags of each branch of [main]. *)
Definition flag_groups : list (list string) :=
  [["--year"; "-y"]; ["--search"; "-s"]; ["--quarter"; "-q"]; ["--date"; "-d"];
   ["--json"; "-j"]; ["--tips"; "-t"]; ["--help"; "-h"]].

(** C6: dispatch is case-insensitive and alias-equivalent: for the same
    clock, two arguments with the same case-folded form, or whose
    case-folded forms are aliases of one recognized flag, give the same
    output and exit status. *)
Theorem dispatch_case_alias (p a b : string) (rest : list string) (c : clock) :
  (lower a = lower b
   \/ exists g, In g flag_groups /\ In (lower a) g /\ In (lower b) g) ->
  main (p :: a :: rest) c = main (p :: b :: rest) c.
Proof.
  intros [H | [g [Hg [Ha Hb]]]]; [now apply main_lower|].
  rewrite (main_folded p a), (main_folded p b).
  unfold flag_groups in Hg; simpl in Hg.
  repeat destruct Hg as [<- | Hg]; try contradiction;
    simpl in Ha, Hb;
    repeat destruct Ha as [<- | Ha]; try contradiction;
    repeat destruct Hb as [<- | Hb]; try contradiction;
    reflexivity.
Qed.

Lemma dispatch_case_alias_witness :
  main ["get_current_time.py"; "--YEAR"] (fixed_clock sample)
  = main ["get_current_time.py"; "-y"] (fixed_clock sample).
Proof.
  apply (dispatch_case_alias "get_current_time.py" "--YEAR" "-y" [] (fixed_clock sample)).
  right; exists ["--year"; "-y"]; split; [simpl; auto|]; split; simpl; auto.
Defined.

(** Whether [needle] occurs in [hay]. *)
Definition contains (needle hay : string) : bool :=
  match String.index 0 needle hay with Some _ => true | None => false end.

(** C7: with the captured instant 2026-02-08 14:30:00, [--quarter] prints
    [Q1 2026], [--date] prints [2026-02-08], [--year] prints [2026], and the
    run without arguments prints the tips, which contain
    [Current Quarter: Q1 2026]. *)
Theorem sample_outputs (c : clock) (p : string) :
  current c = mk_instant 2026 2 8 14 30 0 ->
  stdout (main [p; "--quarter"] c) = print "Q1 2026"
  /\ stdout (main [p; "--date"] c) = print "2026-02-08"
  /\ stdout (main [p; "--year"] c) = print "2026"
  /\ stdout (main [p] c) = print_search_tips (time_info_of (mk_instant 2026 2 8 14 30 0))
  /\ contains "Current Quarter: Q1 2026" (stdout (main [p] c)) = true.
Proof.
  intros H.
  rewrite !(main_current _ c (fixed_clock (mk_instant 2026 2 8 14 30 0)) H).
  repeat split; vm_compute; reflexivity.
Qed.

Lemma sample_outputs_witness :
  current (fixed_clock sample) = mk_instant 2026 2 8 14 30 0 /\
  stdout (main ["get_current_time.py"; "--quarter"] (fixed_clock sample)) = print "Q1 2026".
Proof.
  split; [reflexivity|].
  exact (proj1 (sample_outputs (fixed_clock sample) "get_current_time.py" eq_refl)).
Defined.

(** ** Exit status and the unknown-argument branch *)

(** C8: without an argument [main] prints the tips and exits 0; every
    recognized flag (in any case) exits 0; only an unrecognized argument
    exits with a non-zero status, namely 1. *)
Theorem exit_status_branches (c : clock) :
  (forall argv, (length argv <= 1)%nat ->
     main argv c = mk_outcome (print_search_tips (fst (get_time_info c))) 0)
  /\ (forall p a rest, recognized (lower a) = true -> exit_status (main (p :: a :: rest) c) = 0)
  /\ (forall p a rest, recognized (lower a) = false -> exit_status (main (p :: a :: rest) c) = 1)
  /\ (forall argv, exit_status (main argv c) <> 0 ->
        exists p a rest, argv = p :: a :: rest /\ recognized (lower a) = false).
Proof.
  assert (Hrec : forall p a rest, recognized (lower a) = true ->
                 exit_status (main (p :: a :: rest) c) = 0).
  { intros p a rest H; rewrite main_folded.
    apply recognized_cases in H; simpl in H.
    repeat destruct H as [H | H]; try contradiction; rewrite <- H; reflexivity. }
  split; [|split; [exact Hrec|split]].
  - intros [|p [|a rest]] H; [reflexivity|reflexivity|simpl in H; lia].
  - intros p a rest H; rewrite (main_unknown p a rest c H); reflexivity.
  - intros [|p [|a rest]] H; [contradiction H; reflexivity|contradiction H; reflexivity|].
    exists p, a, rest; split; [reflexivity|].
    destruct (recognized (lower a)) eqn:E; [|reflexivity].
    exfalso; exact (H (Hrec p a rest E)).
Qed.

Lemma exit_status_branches_witness :
  exit_status (main ["get_current_time.py"; "-T"] (fixed_clock sample)) = 0 /\
  exit_status (main ["get_current_time.py"; "--nope"] (fixed_clock sample)) = 1.
Proof.
  destruct (exit_status_branches (fixed_clock sample)) as [_ [H0 [H1 _]]].
  split; [apply H0 | apply H1]; reflexivity.
Defined.

(** C9: for an unrecognized argument [t], [main] writes exactly two
    lines, [Unknown argument: {t.lower()}] and
    [Use --help for usage information], and exits with status 1. *)
Theorem unknown_argument_output (p t : string) (rest : list string) (c : clock) :
  recognized (lower t) = false ->
  main (p :: t :: rest) c =
  mk_outcome ("Unknown argument: " ++ lower t ++ nl ++
              "Use --help for usage information" ++ nl) 1.
Proof.
  intros H; rewrite (main_unknown p t rest c H); unfold print.
  rewrite !str_app_assoc; reflexivity.
Qed.

Lemma unknown_argument_output_witness :
  recognized (lower "--BoGuS") = false /\
  stdout (main ["get_current_time.py"; "--BoGuS"] (fixed_clock sample))
  = "Unknown argument: --bogus" ++ nl ++ "Use --help for usage information" ++ nl.
Proof.
  split; [reflexivity|].
  rewrite (unknown_argument_output "get_current_time.py" "--BoGuS" [] (fixed_clock sample)
             eq_refl).
  reflexivity.
Defined.

(** C10: only [sys.argv[1]] is read: the arguments after it never change
    the outcome; [--year --json] behaves as [--year]. *)
Theorem extra_arguments_ignored (p a : string) (r1 r2 : list string) (c : clock) :
  main (p :: a :: r1) c = main (p :: a :: r2) c
  /\ main [p; "--year"; "--json"] c = main [p; "--year"] c.
Proof. split; reflexivity. Qed.

(** C1: for every unrecognized token (the first argument, case-folded,
    as the dispatcher sees it) the output starts with the line
    [Unknown argument: {token}], and the exit status is non-zero (1); for
    [--bogus] the message line is exactly [Unknown argument: --bogus]. *)
Theorem unknown_argument_reported (p t : string) (rest : list string) (c : clock) :
  recognized (lower t) = false ->
  String.prefix (print ("Unknown argument: " ++ lower t)) (stdout (main (p :: t :: rest) c)) = true
  /\ stdout (main (p :: t :: rest) c)
     = print ("Unknown argument: " ++ lower t) ++ print "Use --help for usage information"
  /\ exit_status (main (p :: t :: rest) c) = 1
  /\ stdout (main [p; "--bogus"] c)
     = print "Unknown argument: --bogus" ++ print "Use --help for usage information"
  /\ exit_status (main [p; "--bogus"] c) = 1.
Proof.
  intros H; rewrite (main_unknown p t rest c H); cbn [stdout exit_status].
  split; [|split; [reflexivity|split; [reflexivity|split; reflexivity]]].
  apply String.prefix_correct.
  (* the whole first line is a prefix of the output *)
  set (l1 := print ("Unknown argument: " ++ lower t)).
  clearbody l1.
  induction l1 as [|ch l1 IH]; simpl; [reflexivity|].
  rewrite IH; reflexivity.
Qed.

Lemma unknown_argument_reported_witness :
  recognized (lower "--BOGUS") = false /\
  exit_status (main ["get_current_time.py"; "--BOGUS"] (fixed_clock sample)) = 1.
Proof.
  split; [reflexivity|].
  exact (proj1 (proj2 (proj2
    (unknown_argument_reported "get_current_time.py" "--BOGUS" [] (fixed_clock sample) eq_refl)))).
Defined.


(** * Further properties of the script *)

(** ** Reading the formatted fields back as numbers

    A fixed-format reader for ["%Y-%m-%d %H:%M:%S"] (as [strptime] reads
    it), used to state that the fields of [get_time_info] lose nothing. *)

Definition digit_val (c : ascii) : option Z :=
  let n := nat_of_ascii c in
  if ((48 <=? n) && (n <=? 57))%nat then Some (Z.of_nat (n - 48)) else None.

Definition num2 (a b : ascii) : option Z :=
  match digit_val a, digit_val b with
  | Some x, Some y => Some (10 * x + y)
  | _, _ => None
  end.

Definition num4 (a b c d : ascii) : option Z :=
  match num2 a b, num2 c d with
  | Some x, Some y => Some (100 * x + y)
  | _, _ => None
  end.




(** *** Exhaustive checks over the bounded ranges of [datetime] *)

Definition year4_check (y : Z) : bool :=
  match py_str y with
  | String a (String b (String c (String d EmptyString))) =>
      match num4 a b c d with Some v => v =? y | None => false end
  | _ => false
  end.

Definition zpad2_check (n : Z) : bool :=
  match zpad 2 n with
  | String a (String b EmptyString) =>
      match num2 a b with Some v => v =? n | None => false end
  | _ => false
  end.

Lemma year4_check_all : forallb year4_check (map Z.of_nat (seq 1000 9000)) = true.
Proof. vm_compute; reflexivity. Qed.

Lemma zpad2_check_all : forallb zpad2_check (map Z.of_nat (seq 0 100)) = true.
Proof. vm_compute; reflexivity. Qed.

Lemma in_range_seq (y : Z) (lo n : nat) :
  Z.of_nat lo <= y < Z.of_nat lo + Z.of_nat n -> In y (map Z.of_nat (seq lo n)).
Proof.
  intros H; replace y with (Z.of_nat (Z.to_nat y)) by lia.
  apply in_map, in_seq; lia.
Qed.

Lemma forallb_range (f : Z -> bool) (lo n : nat) (y : Z) :
  forallb f (map Z.of_nat (seq lo n)) = true ->
  Z.of_nat lo <= y < Z.of_nat lo + Z.of_nat n -> f y = true.
Proof.
  intros Hall Hy; rewrite forallb_forall in Hall; apply Hall, in_range_seq, Hy.
Qed.

Lemma year4_shape (y : Z) :
  1000 <= y <= 9999 ->
  exists a b c d, py_str y = String a (String b (String c (String d EmptyString)))
                  /\ num4 a b c d = Some y.
Proof.
  intros Hy.
  assert (E1 : Z.of_nat 1000 = 1000) by reflexivity.
  assert (E9 : Z.of_nat 9000 = 9000) by reflexivity.
  pose proof (forallb_range year4_check 1000 9000 y year4_check_all ltac:(lia)) as H.
  unfold year4_check in H.
  destruct (py_str y) as [|a [|b [|c [|d [|e r]]]]]; try discriminate.
  destruct (num4 a b c d) as [v|] eqn:E; [|discriminate].
  apply Z.eqb_eq in H; subst v; exists a, b, c, d; split; [reflexivity|exact E].
Qed.

Lemma zpad2_shape (n : Z) :
  0 <= n <= 99 ->
  exists a b, zpad 2 n = String a (String b EmptyString) /\ num2 a b = Some n.
Proof.
  intros Hn.
  pose proof (forallb_range zpad2_check 0 100 n zpad2_check_all ltac:(lia)) as H.
  unfold zpad2_check in H.
  destruct (zpad 2 n) as [|a [|b [|c r]]]; try discriminate.
  destruct (num2 a b) as [v|] eqn:E; [|discriminate].
  apply Z.eqb_eq in H; subst v; exists a, b; split; [reflexivity|exact E].
Qed.

Lemma days_in_month_le (y m : Z) : days_in_month y m <= 31.
Proof.
  unfold days_in_month; destruct (m =? 2); [destruct (is_leap y)|
    destruct ((m =? 4) || (m =? 6) || (m =? 9) || (m =? 11))]; lia.
Qed.

Ltac valid_bounds Hv :=
  unfold valid_instant in Hv; split_safe;
  cbn [year month day hour minute second] in *;
  repeat match goal with H : (_ <=? _) = true |- _ => apply Z.leb_le in H end.



(** X2: for a valid instant of a year from 1000 on, the fields have fixed widths: [year] 4
    characters, [year_short] 2, [date_iso] 10, [full_datetime] 19. *)
Theorem field_widths (c : clock) :
  valid_instant (current c) = true -> 1000 <= year (current c) ->
  let ti := fst (get_time_info c) in
  String.length (ti_year ti) = 4%nat /\ String.length (ti_year_short ti) = 2%nat
  /\ String.length (ti_date_iso ti) = 10%nat /\ String.length (ti_full_datetime ti) = 19%nat.
Proof.
  intros Hv Hyr ti; subst ti; rewrite get_time_info_eq; cbn [fst].
  revert Hv Hyr; destruct (current c) as [y m d h i e]; intros Hv Hyr.
  pose proof (days_in_month_le y m).
  valid_bounds Hv.
  pose proof (Z.mod_pos_bound y 100 ltac:(lia)).
  destruct (year4_shape y ltac:(lia)) as [y1 [y2 [y3 [y4 [Hy _]]]]].
  destruct (zpad2_shape (y mod 100) ltac:(lia)) as [s1 [s2 [Hs _]]].
  destruct (zpad2_shape m ltac:(lia)) as [m1 [m2 [Hm _]]].
  destruct (zpad2_shape d ltac:(lia)) as [d1 [d2 [Hd _]]].
  destruct (zpad2_shape h ltac:(lia)) as [h1 [h2 [Hh _]]].
  destruct (zpad2_shape i ltac:(lia)) as [i1 [i2 [Hi _]]].
  destruct (zpad2_shape e ltac:(lia)) as [e1 [e2 [He _]]].
  unfold time_info_of, fmt_Y, fmt_y, fmt_m, fmt_d, fmt_H, fmt_M, fmt_S;
    cbn [year month day hour minute second ti_year ti_year_short ti_full_datetime ti_date_iso].
  rewrite Hy, Hs, Hm, Hd, Hh, Hi, He; repeat split; reflexivity.
Qed.

Lemma field_widths_witness :
  valid_instant (current (fixed_clock sample)) = true /\
  1000 <= year (current (fixed_clock sample)) /\
  String.length (ti_full_datetime (fst (get_time_info (fixed_clock sample)))) = 19%nat.
Proof.
  split; [reflexivity|]; split; [cbn; lia|].
  exact (proj2 (proj2 (proj2 (field_widths (fixed_clock sample) eq_refl ltac:(cbn; lia))))).
Defined.

Definition year_short_check (y : Z) : bool :=
  match py_str y with
  | String _ (String _ r) => String.eqb r (zpad 2 (y mod 100))
  | _ => false
  end.

Lemma year_short_check_all : forallb year_short_check (map Z.of_nat (seq 1000 9000)) = true.
Proof. vm_compute; reflexivity. Qed.

(** X3: for a valid instant of a year from 1000 on, [year_short] is the
    last two characters of [year]. *)
Theorem year_short_suffix (c : clock) :
  valid_instant (current c) = true -> 1000 <= year (current c) ->
  let ti := fst (get_time_info c) in
  exists a b, ti_year ti = String a (String b (ti_year_short ti)).
Proof.
  intros Hv Hyr ti; subst ti; rewrite get_time_info_eq; cbn [fst].
  revert Hv Hyr; destruct (current c) as [y m d h i e]; intros Hv Hyr.
  valid_bounds Hv.
  assert (E1 : Z.of_nat 1000 = 1000) by reflexivity.
  assert (E9 : Z.of_nat 9000 = 9000) by reflexivity.
  pose proof (forallb_range year_short_check 1000 9000 y year_short_check_all ltac:(lia)) as Hc.
  unfold year_short_check in Hc; unfold time_info_of, fmt_Y, fmt_y;
    cbn [year ti_year ti_year_short].
  destruct (py_str y) as [|a [|b r]]; try discriminate.
  apply String.eqb_eq in Hc; rewrite Hc; exists a, b; reflexivity.
Qed.

Lemma year_short_suffix_witness :
  valid_instant (current (fixed_clock sample)) = true /\
  1000 <= year (current (fixed_clock sample)) /\
  exists a b, ti_year (fst (get_time_info (fixed_clock sample)))
              = String a (String b (ti_year_short (fst (get_time_info (fixed_clock sample))))).
Proof.
  split; [reflexivity|]; split; [cbn; lia|].
  exact (year_short_suffix (fixed_clock sample) eq_refl ltac:(cbn; lia)).
Defined.


(** ** The tips printer and the branches of [main] *)

(** X5: the tips block shows only the [year], [quarter] and [date_iso]
    fields: two dictionaries that agree on those three print the same
    tips. *)
Theorem tips_use_three_fields (ti1 ti2 : TimeInfo) :
  ti_year ti1 = ti_year ti2 -> ti_quarter ti1 = ti_quarter ti2 ->
  ti_date_iso ti1 = ti_date_iso ti2 ->
  print_search_tips ti1 = print_search_tips ti2.
Proof. intros Hy Hq Hd; unfold print_search_tips; rewrite Hy, Hq, Hd; reflexivity. Qed.

Lemma tips_use_three_fields_witness :
  print_search_tips (time_info_of sample)
  = print_search_tips (time_info_of (mk_instant 2026 2 8 9 5 0)).
Proof. apply tips_use_three_fields; reflexivity. Defined.

(** X6: [--tips] and [-t], in any case, behave exactly as the run without
    arguments. *)
Theorem tips_flag_is_default (p a : string) (rest : list string) (c : clock) :
  lower a = "--tips" \/ lower a = "-t" ->
  main (p :: a :: rest) c = main [p] c.
Proof. rewrite main_folded; intros [-> | ->]; reflexivity. Qed.

Lemma tips_flag_is_default_witness :
  main ["get_current_time.py"; "--Tips"; "x"] (fixed_clock sample)
  = main ["get_current_time.py"] (fixed_clock sample).
Proof. apply tips_flag_is_default; left; reflexivity. Defined.

(** X7: the [--help] output and the unknown-argument output do not depend
    on the clock. *)
Theorem help_and_unknown_clock_free (p a : string) (rest : list string) (c1 c2 : clock) :
  lower a = "--help" \/ lower a = "-h" \/ recognized (lower a) = false ->
  main (p :: a :: rest) c1 = main (p :: a :: rest) c2.
Proof.
  intros [H | [H | H]].
  - rewrite !(main_folded p a), H; reflexivity.
  - rewrite !(main_folded p a), H; reflexivity.
  - rewrite !(main_unknown p a rest _ H); reflexivity.
Qed.

Lemma help_and_unknown_clock_free_witness :
  main ["get_current_time.py"; "-H"] (fixed_clock sample)
  = main ["get_current_time.py"; "-H"] (fixed_clock (mk_instant 1999 12 31 23 59 59)).
Proof. apply help_and_unknown_clock_free; right; left; reflexivity. Defined.




(** X9: [--json] never needs an escape sequence: every key and value of
    the dictionary is written between quotes exactly as it is. *)
Theorem json_members_verbatim (c : clock) :
  map json_member (time_info_items (fst (get_time_info c)))
  = map (fun kv => quoted (fst kv) ++ ": " ++ quoted (snd kv))
        (time_info_items (fst (get_time_info c))).
Proof.
  apply map_ext_in; intros [k v] Hin.
  pose proof (time_info_items_safe (current c)) as Hs.
  rewrite get_time_info_eq in Hin; cbn [fst] in Hin.
  rewrite forallb_forall in Hs; specialize (Hs _ Hin).
  unfold safe_item in Hs; cbn [fst snd] in Hs; apply andb_prop in Hs; destruct Hs as [Hk Hv].
  unfold json_member, json_str, quoted; cbn [fst snd].
  rewrite (json_escape_safe k Hk), (json_escape_safe v Hv); reflexivity.
Qed.



(** X11: for a valid instant, [month_year] is the instant's month name,
    one of the twelve English names, a space and the [year] field. *)
Theorem month_year_shape (c : clock) :
  valid_instant (current c) = true ->
  let ti := fst (get_time_info c) in
  exists name, In name month_names
    /\ name = nth (Z.to_nat (month (current c) - 1)) month_names ""
    /\ ti_month_year ti = name ++ " " ++ ti_year ti.
Proof.
  intros Hv ti; subst ti; rewrite get_time_info_eq; cbn [fst].
  revert Hv; destruct (current c) as [y m d h i e]; intros Hv.
  valid_bounds Hv.
  exists (month_name m); split; [|split; reflexivity].
  apply nth_In; unfold month_names; simpl; lia.
Qed.

Lemma month_year_shape_witness :
  valid_instant (current (fixed_clock sample)) = true /\
  exists name, In name month_names
    /\ name = nth (Z.to_nat (month (current (fixed_clock sample)) - 1)) month_names ""
    /\ ti_month_year (fst (get_time_info (fixed_clock sample)))
       = name ++ " " ++ ti_year (fst (get_time_info (fixed_clock sample))).
Proof. split; [reflexivity|]. exact (month_year_shape (fixed_clock sample) eq_refl). Defined.

Lemma ends_nl_print (x : string) : exists s, print x = s ++ nl.
Proof. exists x; reflexivity. Qed.

Lemma ends_nl_app (a b : string) : (exists s, b = s ++ nl) -> exists s, a ++ b = s ++ nl.
Proof. intros [s ->]; exists (a ++ s); now rewrite str_app_assoc. Qed.

(** X12: whatever the arguments, [main] writes a non-empty output that
    ends with a newline. *)
Theorem output_ends_with_newline (argv : list string) (c : clock) :
  exists s, stdout (main argv c) = s ++ nl.
Proof.
  unfold main; rewrite get_time_info_eq; cbv zeta.
  destruct argv as [|p [|a r]];
    [| | repeat match goal with |- context [if str_in ?x ?l then _ else _] =>
                  destruct (str_in x l) end];
    cbn [stdout]; unfold print_search_tips;
    repeat first [apply ends_nl_print | apply ends_nl_app].
Qed.

(** X13: success or failure depends on the arguments only: the exit
    status of [main] is the same for every clock. *)
Theorem exit_status_clock_free (argv : list string) (c1 c2 : clock) :
  exit_status (main argv c1) = exit_status (main argv c2).
Proof.
  destruct argv as [|p [|a r]]; [reflexivity|reflexivity|].
  destruct (recognized (lower a)) eqn:E.
  - rewrite !(main_folded p a); apply recognized_cases in E; simpl in E.
    repeat destruct E as [E | E]; try contradiction; rewrite <- E; reflexivity.
  - rewrite !(main_unknown p a r _ E); reflexivity.
Qed.
